(** * The display composable of Vuetify: breakpoint classification

    A shallow embedding of [packages/vuetify/src/composables/display.ts].

    JavaScript objects used as dictionaries (the thresholds, the table of
    provided injections) are finite maps with string keys; a property that
    is absent reads as [undefined], which is [None] here.  Widths, heights
    and thresholds are counts of pixels: a [number] is an integer or [NaN],
    and [NaN] is what [undefined] becomes when it is compared. *)

From Stdlib Require Import ZArith Bool String List Lia.
From stdpp Require Import gmap strings.

Local Open Scope Z_scope.

(** ** JavaScript numbers and comparisons *)

Module JS.

Inductive number : Type :=
| Num (z : Z)
| NaN.

(** [ToNumber] of the result of a property read. *)
Definition ToNumber (v : option number) : number :=
  match v with
  | Some n => n
  | None => NaN
  end.

(** [a < b]: false as soon as an operand is [NaN]. *)
Definition lt (a b : number) : bool :=
  match a, b with
  | Num x, Num y => Z.ltb x y
  | _, _ => false
  end.

(** [a >= b]: false as soon as an operand is [NaN]. *)
Definition ge (a b : number) : bool :=
  match a, b with
  | Num x, Num y => Z.leb y x
  | _, _ => false
  end.

(** [a <= b]: false as soon as an operand is [NaN]. *)
Definition le (a b : number) : bool :=
  match a, b with
  | Num x, Num y => Z.leb x y
  | _, _ => false
  end.

(** [Math.max(a, b)]. *)
Definition Math_max (a b : number) : number :=
  match a, b with
  | Num x, Num y => Num (Z.max x y)
  | _, _ => NaN
  end.

(** [s] starts with [p]. *)
Fixpoint startsWith (p s : string) : bool :=
  match p, s with
  | EmptyString, _ => true
  | String a p', String b s' => if Ascii.eqb a b then startsWith p' s' else false
  | String _ _, EmptyString => false
  end.

(** [s] has an occurrence of the literal [p]. *)
Fixpoint includes (p s : string) : bool :=
  startsWith p s ||
  match s with
  | EmptyString => false
  | String _ s' => includes p s'
  end.

(** A regular expression of the shape [/a|b|c/]: an alternation of
    literals, searched anywhere in the subject. *)
Definition RegExp : Type := list string.

(** [Boolean(s.match(re))]. *)
Definition matches (s : string) (re : RegExp) : bool :=
  existsb (fun p => includes p s) re.

End JS.

(** ** Data model *)

(** ['xs' | 'sm' | 'md' | 'lg' | 'xl']: a union of string literals. *)
Definition DisplayBreakpoint : Type := string.

(** [number | DisplayBreakpoint], told apart at run time by [typeof]. *)
Inductive MobileBreakpoint : Type :=
| OfNumber (n : JS.number)
| OfName (b : DisplayBreakpoint).

(** [DisplayThresholds] and [Partial<DisplayThresholds>] are the same kind
    of object at run time: a dictionary from names to numbers in which a
    name may be missing. *)
Abbreviation DisplayThresholds := (gmap string JS.number).

Module DisplayOptions.
Record t : Type := {
  mobileBreakpoint : option MobileBreakpoint;
  thresholds : option DisplayThresholds
}.
End DisplayOptions.

Module InternalDisplayOptions.
Record t : Type := {
  mobileBreakpoint : MobileBreakpoint;
  thresholds : DisplayThresholds
}.
End InternalDisplayOptions.

Record DisplayPlatform : Type := {
  android : bool;
  ios : bool;
  cordova : bool;
  electron : bool;
  chrome : bool;
  edge : bool;
  firefox : bool;
  opera : bool;
  win : bool;
  mac : bool;
  linux : bool;
  intersection : bool;
  touch : bool;
  ssr : bool
}.

Record DisplayInstance : Type := {
  xs : bool;
  sm : bool;
  md : bool;
  lg : bool;
  xl : bool;
  smAndDown : bool;
  smAndUp : bool;
  mdAndDown : bool;
  mdAndUp : bool;
  lgAndDown : bool;
  lgAndUp : bool;
  name : DisplayBreakpoint;
  height : JS.number;
  width : JS.number;
  mobile : bool;
  mobileBreakpoint : MobileBreakpoint;
  platform : DisplayPlatform;
  thresholds : DisplayThresholds
}.

(** [Symbol.for('vuetify:display')]: the key of the global symbol registry. *)
Definition VuetifyDisplaySymbol : string := "vuetify:display".

(** The host environment: the globals of ['@/util/globals'] and what the
    code reads from [window] and [document].  The window fields are only
    read when [IN_BROWSER] holds. *)
Record Host : Type := {
  IN_BROWSER : bool;
  SUPPORTS_INTERSECTION : bool;
  SUPPORTS_TOUCH : bool;
  clientWidth : Z;
  innerWidth : Z;
  clientHeight : Z;
  innerHeight : Z;
  userAgent : string
}.

(** ** Options *)

(** Annotated [DisplayOptions] in the source, with both fields present. *)
Definition defaultDisplayOptions : InternalDisplayOptions.t :=
  {| InternalDisplayOptions.mobileBreakpoint := OfName "md";
     InternalDisplayOptions.thresholds :=
       <["xs" := JS.Num 600]> (<["sm" := JS.Num 960]>
       (<["md" := JS.Num 1280]> (<["lg" := JS.Num 1920]> ∅))) |}.

(** The defaults seen as a [DisplayOptions] value. *)
Definition asOptions (o : InternalDisplayOptions.t) : DisplayOptions.t :=
  {| DisplayOptions.mobileBreakpoint := Some (InternalDisplayOptions.mobileBreakpoint o);
     DisplayOptions.thresholds := Some (InternalDisplayOptions.thresholds o) |}.

(** Modelled from the spec: [mergeDeep] of ['@/util'] is not among the
    sources.  The spec: unspecified fields fall back to defaults via a
    deep-merge of defaults and overrides.  A key of the overrides replaces
    that of the defaults, except that two objects under one key are merged
    key by key in the same way; the thresholds are such objects, and their
    values are numbers. *)
Definition mergeDeep (source : InternalDisplayOptions.t) (target : DisplayOptions.t)
  : InternalDisplayOptions.t :=
  {| InternalDisplayOptions.mobileBreakpoint :=
       match DisplayOptions.mobileBreakpoint target with
       | Some b => b
       | None => InternalDisplayOptions.mobileBreakpoint source
       end;
     InternalDisplayOptions.thresholds :=
       match DisplayOptions.thresholds target with
       | Some t => t ∪ InternalDisplayOptions.thresholds source
       | None => InternalDisplayOptions.thresholds source
       end |}.

(** [options] is [None] when the argument is left out: the parameter then
    takes its default value, the defaults themselves. *)
Definition parseDisplayOptions (options : option DisplayOptions.t)
  : InternalDisplayOptions.t :=
  mergeDeep defaultDisplayOptions
    (match options with
     | Some o => o
     | None => asOptions defaultDisplayOptions
     end).

(** ** Reading the host *)

Definition getClientWidth (h : Host) : JS.number :=
  if IN_BROWSER h
  then JS.Math_max (JS.Num (clientWidth h)) (JS.Num (innerWidth h))
  else JS.Num 0.

Definition getClientHeight (h : Host) : JS.number :=
  if IN_BROWSER h
  then JS.Math_max (JS.Num (clientHeight h)) (JS.Num (innerHeight h))
  else JS.Num 0.

(** The string that [getPlatform] matches its patterns against. *)
Definition identification (h : Host) : string :=
  if IN_BROWSER h then userAgent h else "ssr".

Definition getPlatform (h : Host) : DisplayPlatform :=
  let userAgent := identification h in
  let match_ := JS.matches userAgent in
  {| android := match_ ["android"];
     ios := match_ ["iphone"; "ipad"; "ipod"];
     cordova := match_ ["cordova"];
     electron := match_ ["electron"];
     chrome := match_ ["chrome"];
     edge := match_ ["edge"];
     firefox := match_ ["firefox"];
     opera := match_ ["opera"];
     win := match_ ["win"];
     mac := match_ ["mac"];
     linux := match_ ["linux"];
     intersection := SUPPORTS_INTERSECTION h;
     touch := SUPPORTS_TOUCH h;
     ssr := match_ ["ssr"] |}.

(** ** The classifier *)

(** [thresholds.k] and [thresholds[k]], as an operand of a comparison. *)
Definition threshold (thresholds : DisplayThresholds) (k : string) : JS.number :=
  JS.ToNumber (thresholds !! k).

(** The body of the [watchEffect] callback of [createDisplay]: every field
    of the reactive state, from the closure's constants and the current
    values of the [height] and [width] refs. *)
Definition effect (thresholds : DisplayThresholds) (mobileBreakpoint : MobileBreakpoint)
  (platform : DisplayPlatform) (height width : JS.number) : DisplayInstance :=
  let xs := JS.lt width (threshold thresholds "xs") in
  let sm := JS.lt width (threshold thresholds "sm") && negb xs in
  let md := JS.lt width (threshold thresholds "md") && negb (sm || xs) in
  let lg := JS.lt width (threshold thresholds "lg") && negb (md || sm || xs) in
  let xl := JS.ge width (threshold thresholds "lg") in
  let name :=
    if xs then "xs"
    else if sm then "sm"
    else if md then "md"
    else if lg then "lg"
    else "xl" in
  let breakpointValue :=
    match mobileBreakpoint with
    | OfNumber n => n
    | OfName b => threshold thresholds b
    end in
  let mobile :=
    if negb (ssr platform)
    then JS.lt width breakpointValue
    else android platform || ios platform || opera platform in
  {| xs := xs;
     sm := sm;
     md := md;
     lg := lg;
     xl := xl;
     smAndDown := negb (md || lg || xl);
     smAndUp := negb xs;
     mdAndDown := negb (lg || xl);
     mdAndUp := negb (xs || sm);
     lgAndDown := negb xl;
     lgAndUp := negb (xs || sm || md);
     name := name;
     height := height;
     width := width;
     mobile := mobile;
     mobileBreakpoint := mobileBreakpoint;
     platform := platform;
     thresholds := thresholds |}.

(** What [createDisplay] leaves behind: the constants captured by its
    closures, the two refs, the reactive state as of the last run of the
    effect, and whether [onResize] listens to the window. *)
Record Display : Type := {
  options : InternalDisplayOptions.t;
  snapshot : DisplayPlatform;
  heightRef : JS.number;
  widthRef : JS.number;
  state : DisplayInstance;
  listening : bool
}.

(** One run of the effect over the current refs. *)
Definition runEffect (options : InternalDisplayOptions.t) (snapshot : DisplayPlatform)
  (heightRef widthRef : JS.number) : DisplayInstance :=
  effect (InternalDisplayOptions.thresholds options)
         (InternalDisplayOptions.mobileBreakpoint options)
         snapshot heightRef widthRef.

Definition createDisplay (h : Host) (opts : option DisplayOptions.t) : Display :=
  let options := parseDisplayOptions opts in
  let height := getClientHeight h in
  let platform := getPlatform h in
  let width := getClientWidth h in
  {| options := options;
     snapshot := platform;
     heightRef := height;
     widthRef := width;
     state := runEffect options platform height width;
     listening := IN_BROWSER h |}.

(** [onResize] writes both refs and nothing else: the state keeps what the
    last run of the effect left in it. *)
Definition onResize (h : Host) (d : Display) : Display :=
  let height := getClientHeight h in
  let width := getClientWidth h in
  {| options := options d;
     snapshot := snapshot d;
     heightRef := height;
     widthRef := width;
     state := state d;
     listening := listening d |}.

(** Vue runs the effect again, over the refs as they are then, some time
    after one of them was written. *)
Definition flush (d : Display) : Display :=
  {| options := options d;
     snapshot := snapshot d;
     heightRef := heightRef d;
     widthRef := widthRef d;
     state := runEffect (options d) (snapshot d) (heightRef d) (widthRef d);
     listening := listening d |}.

(** The window, now as [h] describes it, fires [resize], and the effect
    has run again: the display once it is settled. *)
Definition resize (h : Host) (d : Display) : Display :=
  if listening d then flush (onResize h d) else d.

(** What happens to a display, one thing at a time: the window fires
    [resize], or Vue flushes the effect. *)
Inductive Event : Type :=
| Resized (h : Host)
| Flushed.

Definition step (e : Event) (d : Display) : Display :=
  match e with
  | Resized h => if listening d then onResize h d else d
  | Flushed => flush d
  end.

Fixpoint run (events : list Event) (d : Display) : Display :=
  match events with
  | [] => d
  | e :: rest => run rest (step e d)
  end.

(** The windows that fired [resize], in order. *)
Fixpoint resizedHosts (events : list Event) : list Host :=
  match events with
  | [] => []
  | Resized h :: rest => h :: resizedHosts rest
  | Flushed :: rest => resizedHosts rest
  end.

(** ** Injection *)

Inductive Error : Type :=
| mkError (message : string).

Inductive Completion (A : Type) : Type :=
| Return (a : A)
| Throw (e : Error).

Arguments Return {A} a.
Arguments Throw {A} e.

(** What is provided in the current context, by key: for the display key,
    the refs over the state of a display, read here as that state.
    [inject] belongs to Vue: it answers with the value provided under the
    key, or [undefined]. *)
Abbreviation Provides := (gmap string DisplayInstance).

Definition inject (key : string) (provides : Provides) : option DisplayInstance :=
  provides !! key.

(** [!display]: [undefined] is falsy, an object is truthy. *)
Definition not_ (display : option DisplayInstance) : bool :=
  match display with
  | Some _ => false
  | None => true
  end.

Definition notInitialized : Error :=
  mkError "Could not find Vuetify display injection".

Definition useDisplay (provides : Provides) : Completion (option DisplayInstance) :=
  let display := inject VuetifyDisplaySymbol provides in
  if not_ display then Throw notInitialized else Return display.

(** ** Sample inputs *)

(** A browser window of the given size on a desktop. *)
Definition desktop (w h : Z) : Host :=
  {| IN_BROWSER := true;
     SUPPORTS_INTERSECTION := true;
     SUPPORTS_TOUCH := false;
     clientWidth := w;
     innerWidth := w;
     clientHeight := h;
     innerHeight := h;
     userAgent := "mozilla/5.0 (x11; linux x86_64) chrome/90.0 safari/537.36" |}.

(** A server rendering for a phone: no window, and whatever the host knows
    about the client is not consulted. *)
Definition phoneOnServer : Host :=
  {| IN_BROWSER := false;
     SUPPORTS_INTERSECTION := false;
     SUPPORTS_TOUCH := false;
     clientWidth := 0;
     innerWidth := 0;
     clientHeight := 0;
     innerHeight := 0;
     userAgent := "mozilla/5.0 (linux; android 11) ssr" |}.


(** The thresholds of the documentation's example, without its [xl]. *)
Definition narrowThresholds : DisplayThresholds :=
  <["xs" := JS.Num 0]> (<["sm" := JS.Num 340]>
  (<["md" := JS.Num 540]> (<["lg" := JS.Num 800]> ∅))).

Definition narrowOptions (mb : option MobileBreakpoint) : DisplayOptions.t :=
  {| DisplayOptions.mobileBreakpoint := mb;
     DisplayOptions.thresholds := Some narrowThresholds |}.

(** Thresholds that are not ascending: [lg] lies below [md]. *)
Definition foldedThresholds : DisplayThresholds :=
  <["xs" := JS.Num 0]> (<["sm" := JS.Num 0]>
  (<["md" := JS.Num 1280]> (<["lg" := JS.Num 100]> ∅))).

(** Only [sm] is overridden, and the mobile breakpoint is a number. *)
Definition someOptions : DisplayOptions.t :=
  {| DisplayOptions.mobileBreakpoint := Some (OfNumber (JS.Num 580));
     DisplayOptions.thresholds := Some (<["sm" := JS.Num 700]> ∅) |}.

(** The mobile breakpoint names [xl]; no thresholds are given. *)
Definition xlOptions : DisplayOptions.t :=
  {| DisplayOptions.mobileBreakpoint := Some (OfName "xl");
     DisplayOptions.thresholds := None |}.

(** * Properties *)

(** ** Vocabulary of the statements *)

(** The four boundaries are numbers and do not decrease. *)
Definition ascending (t : DisplayThresholds) : Prop :=
  JS.le (threshold t "xs") (threshold t "sm") = true /\
  JS.le (threshold t "sm") (threshold t "md") = true /\
  JS.le (threshold t "md") (threshold t "lg") = true.

(** The five bucket flags, lowest bucket first. *)
Definition buckets (d : DisplayInstance) : list bool :=
  [xs d; sm d; md d; lg d; xl d].

(** How many flags of a list are set. *)
Fixpoint countTrue (l : list bool) : nat :=
  match l with
  | [] => O
  | b :: l' => ((if b then 1 else 0) + countTrue l')%nat
  end.

(** The place of the named bucket among the five; 4 is [xl]'s. *)
Definition rank (d : DisplayInstance) : nat :=
  if xs d then 0 else if sm d then 1 else if md d then 2 else if lg d then 3 else 4.

(** What a configuration supplies for threshold [k], if anything. *)
Definition supplied (o : DisplayOptions.t) (k : string) : option JS.number :=
  match DisplayOptions.thresholds o with
  | Some t => t !! k
  | None => None
  end.

(** The window fires [resize] once per host of the list, in order. *)
Fixpoint fire (events : list Host) (d : Display) : Display :=
  match events with
  | [] => d
  | h :: rest => fire rest (resize h d)
  end.

(** [p] occurs in [s]: some text, then [p], then some text. *)
Definition occurs (p s : string) : Prop :=
  exists pre post : string, s = String.append pre (String.append p post).

(** The flags of a snapshot that are read off the identification string,
    [ssr] apart, each with its name. *)
Definition agentFlags (p : DisplayPlatform) : list (string * bool) :=
  [("android", android p); ("ios", ios p); ("cordova", cordova p);
   ("electron", electron p); ("chrome", chrome p); ("edge", edge p);
   ("firefox", firefox p); ("opera", opera p); ("win", win p);
   ("mac", mac p); ("linux", linux p)].

(** A phone browser whose user agent is written in lower case. *)
Definition phone (w h : Z) : Host :=
  {| IN_BROWSER := true;
     SUPPORTS_INTERSECTION := true;
     SUPPORTS_TOUCH := true;
     clientWidth := w;
     innerWidth := w;
     clientHeight := h;
     innerHeight := h;
     userAgent := "mozilla/5.0 (linux; android 11) chrome/90.0 mobile safari/537.36" |}.

(** Host [h] with another user agent. *)
Definition withAgent (u : string) (h : Host) : Host :=
  {| IN_BROWSER := IN_BROWSER h;
     SUPPORTS_INTERSECTION := SUPPORTS_INTERSECTION h;
     SUPPORTS_TOUCH := SUPPORTS_TOUCH h;
     clientWidth := clientWidth h;
     innerWidth := innerWidth h;
     clientHeight := clientHeight h;
     innerHeight := innerHeight h;
     userAgent := u |}.

(** What every display reached from [createDisplay] satisfies: the state
    is the effect of the current refs, and the width is an integer. *)
Definition settled (d : Display) : Prop :=
  state d = runEffect (options d) (snapshot d) (heightRef d) (widthRef d) /\
  exists z : Z, widthRef d = JS.Num z.

(** ** Helper lemmas *)

(** A resolved threshold is the supplied one, else the default one. *)
Lemma parse_threshold (o : DisplayOptions.t) (k : string) :
  InternalDisplayOptions.thresholds (parseDisplayOptions (Some o)) !! k =
  match supplied o k with
  | Some v => Some v
  | None => InternalDisplayOptions.thresholds defaultDisplayOptions !! k
  end.
Proof.
  unfold parseDisplayOptions, mergeDeep, supplied; cbn [InternalDisplayOptions.thresholds].
  destruct (DisplayOptions.thresholds o) as [t|]; [|reflexivity].
  destruct (t !! k) as [v|] eqn:Hk.
  - apply lookup_union_Some_l. exact Hk.
  - apply lookup_union_r. exact Hk.
Qed.

Lemma mergeDeep_self (o : InternalDisplayOptions.t) : mergeDeep o (asOptions o) = o.
Proof.
  destruct o as [mb t]. unfold mergeDeep, asOptions; cbn.
  f_equal. apply (idemp (∪)).
Qed.

Lemma default_parse : parseDisplayOptions None = defaultDisplayOptions.
Proof. apply mergeDeep_self. Qed.

Lemma default_thresholds :
  threshold (InternalDisplayOptions.thresholds defaultDisplayOptions) "xs" = JS.Num 600 /\
  threshold (InternalDisplayOptions.thresholds defaultDisplayOptions) "sm" = JS.Num 960 /\
  threshold (InternalDisplayOptions.thresholds defaultDisplayOptions) "md" = JS.Num 1280 /\
  threshold (InternalDisplayOptions.thresholds defaultDisplayOptions) "lg" = JS.Num 1920 /\
  InternalDisplayOptions.thresholds defaultDisplayOptions !! "xl" = None.
Proof. vm_compute. repeat split. Qed.

(** Splits every integer comparison of the goal into its two outcomes. *)
Ltac split_comparisons :=
  repeat match goal with
  | |- context [Z.ltb ?x ?y] => destruct (Z.ltb_spec x y)
  | |- context [Z.leb ?x ?y] => destruct (Z.leb_spec x y)
  end.

(** What the host reports is an integer, window or not. *)
Lemma getClientWidth_integer (h : Host) : exists z : Z, getClientWidth h = JS.Num z.
Proof. unfold getClientWidth. destruct (IN_BROWSER h); cbn; eauto. Qed.

Lemma effect_name (t : DisplayThresholds) (mb : MobileBreakpoint)
  (p : DisplayPlatform) (h w : JS.number) :
  let d := effect t mb p h w in
  name d =
    if xs d then "xs" else if sm d then "sm" else if md d then "md"
    else if lg d then "lg" else "xl".
Proof. reflexivity. Qed.

(** The state that the default configuration gives an integer width in a
    snapshot that is not server-rendered. *)
Lemma default_state (p : DisplayPlatform) (h : JS.number) (w : Z) :
  ssr p = false ->
  let d := runEffect defaultDisplayOptions p h (JS.Num w) in
  name d =
    (if Z.ltb w 600 then "xs" else if Z.ltb w 960 then "sm"
     else if Z.ltb w 1280 then "md" else if Z.ltb w 1920 then "lg" else "xl") /\
  mobile d = Z.ltb w 1280.
Proof.
  intros Hssr d. unfold d, runEffect, effect; cbn [name mobile].
  change (InternalDisplayOptions.mobileBreakpoint defaultDisplayOptions) with (OfName "md").
  destruct default_thresholds as (-> & -> & -> & -> & _).
  rewrite Hssr. cbn [JS.lt negb].
  split_comparisons; cbn; split; try reflexivity; lia.
Qed.

(** ** C1 and C2: the buckets under ascending thresholds *)

Section Ascending.

Variables (t : DisplayThresholds) (mb : MobileBreakpoint) (p : DisplayPlatform).
Variables (h : JS.number) (w : Z).
Hypothesis Hasc : ascending t.

Lemma ascending_numbers :
  exists a b c e : Z,
    threshold t "xs" = JS.Num a /\ threshold t "sm" = JS.Num b /\
    threshold t "md" = JS.Num c /\ threshold t "lg" = JS.Num e /\
    a <= b /\ b <= c /\ c <= e.
Proof.
  destruct Hasc as (H1 & H2 & H3).
  destruct (threshold t "xs") as [a|]; [|discriminate H1].
  destruct (threshold t "sm") as [b|]; [|discriminate H1].
  destruct (threshold t "md") as [c|]; [|discriminate H2].
  destruct (threshold t "lg") as [e|]; [|discriminate H3].
  exists a, b, c, e. simpl in H1, H2, H3.
  apply Z.leb_le in H1, H2, H3. repeat split; assumption.
Qed.

(** The flags of an integer width are those of the five half-open
    intervals that the boundaries cut. *)
Lemma effect_buckets :
  exists a b c e : Z,
    a <= b /\ b <= c /\ c <= e /\
    let d := effect t mb p h (JS.Num w) in
    xs d = Z.ltb w a /\
    sm d = (Z.leb a w && Z.ltb w b) /\
    md d = (Z.leb b w && Z.ltb w c) /\
    lg d = (Z.leb c w && Z.ltb w e) /\
    xl d = Z.leb e w.
Proof.
  destruct ascending_numbers as (a & b & c & e & Ha & Hb & Hc & He & Hab & Hbc & Hce).
  exists a, b, c, e. repeat (split; [assumption|]).
  unfold effect; cbn [xs sm md lg xl].
  rewrite Ha, Hb, Hc, He. cbn [JS.lt JS.ge].
  split_comparisons; cbn; repeat split; try reflexivity; lia.
Qed.

(** C1.  For every integer width and every thresholds object whose four
    boundaries are ascending, exactly one of the five bucket flags that
    the effect computes is true. *)
Theorem C1_exactly_one_bucket :
  countTrue (buckets (effect t mb p h (JS.Num w))) = 1%nat.
Proof.
  destruct effect_buckets
    as (a & b & c & e & Hab & Hbc & Hce & Hxs & Hsm & Hmd & Hlg & Hxl).
  unfold buckets. rewrite Hxs, Hsm, Hmd, Hlg, Hxl.
  split_comparisons; cbn; try reflexivity; lia.
Qed.

(** C2.  For every integer width and ascending thresholds, [name] is the
    first label whose flag is set, ["xl"] when none of the first four is,
    and a bucket flag is true exactly when [name] is the label of that
    flag: ["xs"] for [xs], ["sm"] for [sm], ["md"] for [md], ["lg"] for
    [lg], and ["xl"] for [xl]. *)
Theorem C2_name_matches_bucket :
  let d := effect t mb p h (JS.Num w) in
  name d = (if xs d then "xs" else if sm d then "sm" else if md d then "md"
            else if lg d then "lg" else "xl") /\
  (xs d = true <-> name d = "xs") /\
  (sm d = true <-> name d = "sm") /\
  (md d = true <-> name d = "md") /\
  (lg d = true <-> name d = "lg") /\
  (xl d = true <-> name d = "xl").
Proof.
  intros d. split; [reflexivity|].
  destruct effect_buckets
    as (a & b & c & e & Hab & Hbc & Hce & Hxs & Hsm & Hmd & Hlg & Hxl).
  fold d in Hxs, Hsm, Hmd, Hlg, Hxl.
  unfold d at 2 4 6 8 10. rewrite effect_name. fold d.
  rewrite Hxs, Hsm, Hmd, Hlg, Hxl.
  split_comparisons; cbn; repeat split; intros; try reflexivity; try discriminate; lia.
Qed.

End Ascending.

Lemma C1_exactly_one_bucket_witness :
  let d := createDisplay (desktop 339 600) (Some (narrowOptions None)) in
  ascending (InternalDisplayOptions.thresholds (options d)) /\
  countTrue (buckets (state d)) = 1%nat.
Proof.
  intros d.
  assert (H : ascending (InternalDisplayOptions.thresholds (options d)))
    by (vm_compute; auto).
  split; [exact H|].
  exact (C1_exactly_one_bucket (InternalDisplayOptions.thresholds (options d))
           (InternalDisplayOptions.mobileBreakpoint (options d))
           (snapshot d) (JS.Num 600) 339 H).
Defined.

Lemma C2_name_matches_bucket_witness :
  let d := createDisplay (desktop 339 600) (Some (narrowOptions None)) in
  ascending (InternalDisplayOptions.thresholds (options d)) /\
  name (state d) = "sm".
Proof.
  intros d.
  assert (H : ascending (InternalDisplayOptions.thresholds (options d)))
    by (vm_compute; auto).
  split; [exact H|].
  destruct (C2_name_matches_bucket (InternalDisplayOptions.thresholds (options d))
              (InternalDisplayOptions.mobileBreakpoint (options d))
              (snapshot d) (JS.Num 600) 339 H)
    as (_ & _ & Hsm & _).
  apply Hsm. vm_compute; reflexivity.
Defined.

(** ** C3: the cumulative flags *)

(** C3 does not hold of all thresholds.  When they are not ascending,
    [md] can be true while [mdAndDown] is false: at width 200 with [md] at
    1280 and [lg] at 100, both [md] and [xl] are set. *)
Lemma C3_md_without_mdAndDown :
  ~ (forall (t : DisplayThresholds) (mb : MobileBreakpoint) (p : DisplayPlatform)
       (h : JS.number) (w : Z),
       let d := effect t mb p h (JS.Num w) in
       md d = true -> mdAndUp d = true /\ mdAndDown d = true).
Proof.
  intros H.
  specialize (H foldedThresholds (OfName "md") (getPlatform (desktop 200 600))
                (JS.Num 600) 200).
  vm_compute in H.
  destruct (H eq_refl) as [_ Hdown]. discriminate Hdown.
Qed.

(** C3, amended.  For every width and thresholds the six cumulative flags
    are the stated combinations of the bucket flags.  When the thresholds
    are ascending they agree with the bucket flags: [md] brings both
    [mdAndUp] and [mdAndDown], and for an integer width every cumulative
    flag says on which side of its boundary the named bucket lies. *)
Theorem C3_cumulative_flags (t : DisplayThresholds) (mb : MobileBreakpoint)
  (p : DisplayPlatform) (h w : JS.number) :
  let d := effect t mb p h w in
  (smAndDown d = negb (md d || lg d || xl d) /\
   smAndUp d = negb (xs d) /\
   mdAndDown d = negb (lg d || xl d) /\
   mdAndUp d = negb (xs d || sm d) /\
   lgAndDown d = negb (xl d) /\
   lgAndUp d = negb (xs d || sm d || md d)) /\
  (ascending t ->
   (md d = true -> mdAndUp d = true /\ mdAndDown d = true) /\
   ((exists z : Z, w = JS.Num z) ->
    smAndDown d = Nat.leb (rank d) 1 /\
    smAndUp d = Nat.leb 1 (rank d) /\
    mdAndDown d = Nat.leb (rank d) 2 /\
    mdAndUp d = Nat.leb 2 (rank d) /\
    lgAndDown d = Nat.leb (rank d) 3 /\
    lgAndUp d = Nat.leb 3 (rank d))).
Proof.
  intros d. split; [repeat split|].
  intros Hasc.
  assert (Hint : (exists z : Z, w = JS.Num z) ->
                 (md d = true -> mdAndUp d = true /\ mdAndDown d = true) /\
                 smAndDown d = Nat.leb (rank d) 1 /\
                 smAndUp d = Nat.leb 1 (rank d) /\
                 mdAndDown d = Nat.leb (rank d) 2 /\
                 mdAndUp d = Nat.leb 2 (rank d) /\
                 lgAndDown d = Nat.leb (rank d) 3 /\
                 lgAndUp d = Nat.leb 3 (rank d)).
  { intros [z Hz]. subst w.
    destruct (effect_buckets t mb p h z Hasc)
      as (a & b & c & e & Hab & Hbc & Hce & Hxs & Hsm & Hmd & Hlg & Hxl).
    fold d in Hxs, Hsm, Hmd, Hlg, Hxl.
    assert (Heq : mdAndDown d = negb (lg d || xl d) /\
                  smAndDown d = negb (md d || lg d || xl d) /\
                  smAndUp d = negb (xs d) /\
                  mdAndUp d = negb (xs d || sm d) /\
                  lgAndDown d = negb (xl d) /\
                  lgAndUp d = negb (xs d || sm d || md d)) by (repeat split).
    destruct Heq as (-> & -> & -> & -> & -> & ->).
    unfold rank. rewrite Hxs, Hsm, Hmd, Hlg, Hxl.
    split_comparisons; cbn; repeat split; intros; try reflexivity;
      try discriminate; lia. }
  split.
  - destruct w as [z|].
    + apply Hint. exists z. reflexivity.
    + intros Hmd. discriminate Hmd.
  - intros Hz. apply Hint. exact Hz.
Qed.

Lemma C3_cumulative_flags_witness :
  let d := state (createDisplay (desktop 400 600) (Some (narrowOptions None))) in
  ascending (thresholds d) /\
  md d = true /\ mdAndUp d = true /\ mdAndDown d = true.
Proof.
  intros d.
  assert (H : ascending (thresholds d)) by (vm_compute; auto).
  assert (Hmd : md d = true) by (vm_compute; reflexivity).
  destruct (C3_cumulative_flags (thresholds d) (mobileBreakpoint d) (platform d)
              (JS.Num 600) (JS.Num 400))
    as (_ & Hasc).
  destruct (Hasc H) as (Hboth & _).
  split; [exact H | split; [exact Hmd | exact (Hboth Hmd)]].
Defined.

(** ** C4: the mobile flag *)

(** C4.  For every resolved configuration, platform snapshot and width:
    when the snapshot is not server-rendered, [mobile] is [width < cutoff],
    where the cutoff is the mobile breakpoint itself when that is a number
    and the value the thresholds hold under it when it is a name; when the
    snapshot is server-rendered, [mobile] is
    [android || ios || opera], whatever the width. *)
Theorem C4_mobile (o : InternalDisplayOptions.t) (p : DisplayPlatform)
  (h w : JS.number) :
  let d := runEffect o p h w in
  (forall n : JS.number,
     InternalDisplayOptions.mobileBreakpoint o = OfNumber n ->
     ssr p = false -> mobile d = JS.lt w n) /\
  (forall b : DisplayBreakpoint,
     InternalDisplayOptions.mobileBreakpoint o = OfName b ->
     ssr p = false ->
     mobile d = JS.lt w (JS.ToNumber (InternalDisplayOptions.thresholds o !! b))) /\
  (ssr p = true ->
   forall h' w' : JS.number,
     mobile (runEffect o p h' w') = android p || ios p || opera p).
Proof.
  intros d. unfold d, runEffect, effect; cbn [mobile].
  repeat split.
  - intros n -> ->. reflexivity.
  - intros b -> ->. reflexivity.
  - intros -> h' w'. reflexivity.
Qed.

Lemma C4_mobile_witness :
  mobile (state (createDisplay (desktop 1024 768) (Some someOptions))) =
  JS.lt (JS.Num 1024) (JS.Num 580).
Proof.
  destruct (C4_mobile (parseDisplayOptions (Some someOptions))
              (getPlatform (desktop 1024 768)) (JS.Num 768) (JS.Num 1024))
    as (Hnumber & _ & _).
  apply Hnumber.
  - reflexivity.
  - vm_compute; reflexivity.
Defined.

(** ** C5: a resize under the default configuration *)

(** C5 names the wrong bucket.  Under the default thresholds a width of
    1500 lies between [md] (1280) and [lg] (1920): after the resize the
    name is ["lg"], not ["md"]. *)
Lemma C5_name_at_1500_is_not_md :
  name (state (createDisplay (desktop 500 800) None)) = "xs" /\
  name (state (resize (desktop 1500 800) (createDisplay (desktop 500 800) None))) = "lg" /\
  name (state (resize (desktop 1500 800) (createDisplay (desktop 500 800) None))) <> "md".
Proof. vm_compute. repeat split. discriminate. Qed.

(** C5, amended.  With the default configuration, in a browser whose
    snapshot is not server-rendered, a display created at width 500 has
    name ["xs"] and is mobile; once the window is resized to width 1500 its
    name is ["lg"] and it is no longer mobile (the cutoff being 1280). *)
Theorem C5_resize_500_to_1500 (h1 h2 : Host) :
  IN_BROWSER h1 = true ->
  ssr (getPlatform h1) = false ->
  getClientWidth h1 = JS.Num 500 ->
  getClientWidth h2 = JS.Num 1500 ->
  let before := state (createDisplay h1 None) in
  let after := state (resize h2 (createDisplay h1 None)) in
  name before = "xs" /\ mobile before = true /\
  name after = "lg" /\ mobile after = false /\
  threshold (thresholds after) "md" = JS.Num 1280.
Proof.
  intros Hlive Hssr Hw1 Hw2 before after.
  unfold before, after, resize, flush, onResize, createDisplay;
    cbn [listening state options snapshot heightRef widthRef].
  rewrite Hlive; cbn [state]. rewrite default_parse, Hw1, Hw2.
  destruct (default_state (getPlatform h1) (getClientHeight h1) 500 Hssr) as [-> ->].
  destruct (default_state (getPlatform h1) (getClientHeight h2) 1500 Hssr) as [-> ->].
  repeat split.
Qed.

Lemma C5_resize_500_to_1500_witness :
  name (state (resize (desktop 1500 800) (createDisplay (desktop 500 800) None))) = "lg" /\
  mobile (state (resize (desktop 1500 800) (createDisplay (desktop 500 800) None))) = false.
Proof.
  assert (H := C5_resize_500_to_1500 (desktop 500 800) (desktop 1500 800)
                 eq_refl ltac:(vm_compute; reflexivity) eq_refl eq_refl).
  cbv zeta in H. destruct H as (_ & _ & Hn & Hm & _). split; assumption.
Defined.

(** ** C6: the thresholds of the documentation at width 339 *)

(** C6 names the wrong bucket.  With [xs] at 0 no width is below the [xs]
    boundary: at 339 the [xs] flag is false, and it is [sm] that is set. *)
Lemma C6_xs_is_false_at_339 :
  let d := state (createDisplay (desktop 339 600) (Some (narrowOptions None))) in
  xs d = false /\ sm d = true /\
  ~ (xs d = true /\ sm d = false /\ md d = false /\ lg d = false /\ xl d = false).
Proof.
  vm_compute. repeat split. intros [H _]. discriminate H.
Qed.

(** C6, amended.  With thresholds xs:0, sm:340, md:540, lg:800 and width
    339, the [sm] bucket flag is true and the [xs], [md], [lg] and [xl]
    bucket flags are false; the name is ["sm"]. *)
Theorem C6_width_339_is_sm (h : Host) (mb : option MobileBreakpoint) :
  getClientWidth h = JS.Num 339 ->
  let d := state (createDisplay h (Some (narrowOptions mb))) in
  xs d = false /\ sm d = true /\ md d = false /\ lg d = false /\ xl d = false /\
  name d = "sm".
Proof.
  intros Hw d. unfold d, createDisplay, runEffect; cbn [state].
  rewrite Hw. unfold effect, threshold; cbn [xs sm md lg xl name].
  rewrite !parse_threshold.
  change (supplied (narrowOptions mb) "xs") with (narrowThresholds !! "xs").
  change (supplied (narrowOptions mb) "sm") with (narrowThresholds !! "sm").
  change (supplied (narrowOptions mb) "md") with (narrowThresholds !! "md").
  change (supplied (narrowOptions mb) "lg") with (narrowThresholds !! "lg").
  vm_compute. repeat split.
Qed.

Lemma C6_width_339_is_sm_witness :
  getClientWidth (desktop 339 600) = JS.Num 339 /\
  sm (state (createDisplay (desktop 339 600) (Some (narrowOptions None)))) = true.
Proof.
  split; [reflexivity|].
  apply (C6_width_339_is_sm (desktop 339 600) None eq_refl).
Defined.

(** ** C7: the headless context *)

Lemma matches_one (s p : string) : JS.matches s [p] = JS.includes p s.
Proof. unfold JS.matches; cbn. apply orb_false_r. Qed.


(** Without a window nothing listens: a display created there stays as it
    was created. *)
Lemma headless_resize (h h' : Host) (opts : option DisplayOptions.t) :
  IN_BROWSER h = false ->
  resize h' (createDisplay h opts) = createDisplay h opts.
Proof.
  intros Hhead. unfold resize, createDisplay; cbn [listening].
  rewrite Hhead. reflexivity.
Qed.




(** ** C8: asking for the display before it is provided *)

(** C8.  [useDisplay] throws exactly when nothing is provided under the
    display key, and what it throws is the error that says so; when a
    display is provided it returns that display.  It never returns
    [undefined]. *)
Theorem C8_useDisplay (provides : Provides) :
  ((exists e : Error, useDisplay provides = Throw e) <->
   provides !! VuetifyDisplaySymbol = None) /\
  (forall e : Error, useDisplay provides = Throw e -> e = notInitialized) /\
  (forall d : DisplayInstance,
     provides !! VuetifyDisplaySymbol = Some d <->
     useDisplay provides = Return (Some d)) /\
  useDisplay provides <> Return None.
Proof.
  unfold useDisplay, inject.
  destruct (provides !! VuetifyDisplaySymbol) as [d0|]; cbn [not_].
  - repeat split.
    + intros [e He]. discriminate He.
    + intros H. discriminate H.
    + intros e He. discriminate He.
    + intros H. rewrite H. reflexivity.
    + intros H. injection H as H. rewrite H. reflexivity.
    + intros H. discriminate H.
  - repeat split.
    + exists notInitialized. reflexivity.
    + intros e He. injection He as He. symmetry. exact He.
    + intros H. discriminate H.
    + intros H. discriminate H.
    + intros H. discriminate H.
Qed.

Lemma C8_useDisplay_witness :
  useDisplay ∅ = Throw notInitialized /\
  useDisplay (<[VuetifyDisplaySymbol := state (createDisplay (desktop 500 800) None)]> ∅) =
    Return (Some (state (createDisplay (desktop 500 800) None))).
Proof.
  split.
  - destruct (C8_useDisplay ∅) as ([_ Hthrow] & Hwhich & _).
    destruct (Hthrow (lookup_empty _)) as [e He].
    rewrite He. f_equal. exact (Hwhich e He).
  - apply (C8_useDisplay
             (<[VuetifyDisplaySymbol := state (createDisplay (desktop 500 800) None)]> ∅)).
    apply lookup_insert_eq.
Defined.

(** ** C9: unspecified options fall back to the defaults *)

(** C9.  For every configuration, a threshold that is supplied resolves to
    the supplied value; each of [xs], [sm], [md], [lg] that is not
    supplied resolves to its default, 600, 960, 1280 and 1920; the mobile
    breakpoint resolves to the supplied one, and to ["md"] when none is
    supplied; and leaving the configuration out gives the defaults. *)
Theorem C9_defaults (o : DisplayOptions.t) :
  let r := parseDisplayOptions (Some o) in
  (forall (k : string) (v : JS.number),
     supplied o k = Some v -> InternalDisplayOptions.thresholds r !! k = Some v) /\
  (supplied o "xs" = None ->
   InternalDisplayOptions.thresholds r !! "xs" = Some (JS.Num 600)) /\
  (supplied o "sm" = None ->
   InternalDisplayOptions.thresholds r !! "sm" = Some (JS.Num 960)) /\
  (supplied o "md" = None ->
   InternalDisplayOptions.thresholds r !! "md" = Some (JS.Num 1280)) /\
  (supplied o "lg" = None ->
   InternalDisplayOptions.thresholds r !! "lg" = Some (JS.Num 1920)) /\
  (forall b : MobileBreakpoint,
     DisplayOptions.mobileBreakpoint o = Some b ->
     InternalDisplayOptions.mobileBreakpoint r = b) /\
  (DisplayOptions.mobileBreakpoint o = None ->
   InternalDisplayOptions.mobileBreakpoint r = OfName "md") /\
  parseDisplayOptions None = defaultDisplayOptions.
Proof.
  intros r. unfold r.
  split; [intros k v Hk; rewrite parse_threshold, Hk; reflexivity|].
  do 4 (split; [intros Hk; rewrite parse_threshold, Hk; vm_compute; reflexivity|]).
  split; [|split].
  - intros b Hb. unfold parseDisplayOptions, mergeDeep; cbn. rewrite Hb. reflexivity.
  - intros Hb. unfold parseDisplayOptions, mergeDeep; cbn. rewrite Hb. reflexivity.
  - apply default_parse.
Qed.

Lemma C9_defaults_witness :
  let r := parseDisplayOptions (Some someOptions) in
  InternalDisplayOptions.thresholds r !! "sm" = Some (JS.Num 700) /\
  InternalDisplayOptions.thresholds r !! "md" = Some (JS.Num 1280) /\
  InternalDisplayOptions.mobileBreakpoint r = OfNumber (JS.Num 580).
Proof.
  intros r.
  destruct (C9_defaults someOptions) as (Hsup & _ & _ & Hmd & _ & Hmb & _).
  split; [|split].
  - apply Hsup. vm_compute; reflexivity.
  - apply Hmd. vm_compute; reflexivity.
  - apply Hmb. reflexivity.
Defined.

(** ** C10: a mobile breakpoint named [xl] *)

(** C10.  The default thresholds hold nothing under ["xl"].  When the
    mobile breakpoint is the name ["xl"] and the configuration supplies no
    [xl] threshold, the lookup of the cutoff finds nothing, and in a
    snapshot that is not server-rendered [mobile] is false for every
    width. *)
Theorem C10_xl_never_mobile (o : DisplayOptions.t) (p : DisplayPlatform)
  (h w : JS.number) :
  DisplayOptions.mobileBreakpoint o = Some (OfName "xl") ->
  supplied o "xl" = None ->
  ssr p = false ->
  let r := parseDisplayOptions (Some o) in
  InternalDisplayOptions.thresholds defaultDisplayOptions !! "xl" = None /\
  InternalDisplayOptions.thresholds r !! "xl" = None /\
  mobile (runEffect r p h w) = false.
Proof.
  intros Hmb Hxl Hssr r.
  assert (Hdef : InternalDisplayOptions.thresholds defaultDisplayOptions !! "xl" = None)
    by apply default_thresholds.
  assert (Hr : InternalDisplayOptions.thresholds r !! "xl" = None).
  { unfold r. rewrite parse_threshold, Hxl. exact Hdef. }
  split; [exact Hdef | split; [exact Hr|]].
  unfold runEffect, effect; cbn [mobile].
  replace (InternalDisplayOptions.mobileBreakpoint r) with (OfName "xl").
  - rewrite Hssr. unfold threshold. rewrite Hr. cbn.
    destruct w; reflexivity.
  - unfold r, parseDisplayOptions, mergeDeep; cbn. rewrite Hmb. reflexivity.
Qed.

Lemma C10_xl_never_mobile_witness :
  mobile (state (createDisplay (desktop 5000 800) (Some xlOptions))) = false /\
  mobile (state (createDisplay (desktop 0 800) (Some xlOptions))) = false.
Proof.
  split.
  - apply (C10_xl_never_mobile xlOptions (getPlatform (desktop 5000 800))
             (JS.Num 800) (JS.Num 5000) eq_refl eq_refl).
    vm_compute; reflexivity.
  - apply (C10_xl_never_mobile xlOptions (getPlatform (desktop 0 800))
             (JS.Num 800) (JS.Num 0) eq_refl eq_refl).
    vm_compute; reflexivity.
Defined.

(** * Further properties of the code *)

(** ** Matching the identification string *)

Lemma append_cons (x : Ascii.ascii) (a b : string) :
  String.append (String x a) b = String x (String.append a b).
Proof. reflexivity. Qed.

Lemma append_assoc (a b c : string) :
  String.append (String.append a b) c = String.append a (String.append b c).
Proof.
  induction a as [|x a IH]; [reflexivity|].
  rewrite !append_cons, IH. reflexivity.
Qed.

Lemma startsWith_spec (p s : string) :
  JS.startsWith p s = true <-> exists post : string, s = String.append p post.
Proof.
  revert s. induction p as [|a p IH]; intros s; cbn [JS.startsWith].
  - split; [intros _; exists s; reflexivity | reflexivity].
  - destruct s as [|b s].
    + split; [discriminate|]. intros [post H]. rewrite append_cons in H. discriminate H.
    + destruct (Ascii.eqb_spec a b) as [->|Hne].
      * rewrite IH. split; intros [post H]; exists post.
        -- rewrite append_cons, H. reflexivity.
        -- rewrite append_cons in H. injection H as H. exact H.
      * split; [discriminate|]. intros [post H].
        rewrite append_cons in H. injection H as Hab _. congruence.
Qed.

Lemma includes_spec (p s : string) : JS.includes p s = true <-> occurs p s.
Proof.
  unfold occurs. induction s as [|c s IH].
  - cbn [JS.includes]. rewrite orb_false_r, startsWith_spec. split.
    + intros [post H]. exists EmptyString, post. exact H.
    + intros (pre & post & H). destruct pre as [|x pre].
      * exists post. exact H.
      * rewrite append_cons in H. discriminate H.
  - cbn [JS.includes]. rewrite orb_true_iff, startsWith_spec, IH. split.
    + intros [[post H] | (pre & post & H)].
      * exists EmptyString, post. exact H.
      * exists (String c pre), post. rewrite append_cons, H. reflexivity.
    + intros (pre & post & H). destruct pre as [|x pre].
      * left. exists post. exact H.
      * right. rewrite append_cons in H. injection H as _ H.
        exists pre, post. exact H.
Qed.

Lemma occurs_trans (p s u : string) : occurs p s -> occurs s u -> occurs p u.
Proof.
  intros (a & b & ->) (c & e & ->).
  exists (String.append c a), (String.append b e).
  rewrite !append_assoc. reflexivity.
Qed.

Lemma matches_spec (s : string) (re : JS.RegExp) :
  JS.matches s re = true <-> exists p : string, In p re /\ occurs p s.
Proof.
  unfold JS.matches. rewrite existsb_exists.
  split; intros (p & Hin & H); exists p; (split; [exact Hin|]); apply includes_spec; exact H.
Qed.

(** X1.  Each flag that [getPlatform] reads off the identification string
    is set exactly when the string contains the flag's token, letter for
    letter in lower case; [ios] has three tokens.  The string is the user
    agent in a browser and ["ssr"] elsewhere. *)
Theorem X1_platform_flags (h : Host) :
  let p := getPlatform h in
  let u := identification h in
  (android p = true <-> occurs "android" u) /\
  (ios p = true <-> occurs "iphone" u \/ occurs "ipad" u \/ occurs "ipod" u) /\
  (cordova p = true <-> occurs "cordova" u) /\
  (electron p = true <-> occurs "electron" u) /\
  (chrome p = true <-> occurs "chrome" u) /\
  (edge p = true <-> occurs "edge" u) /\
  (firefox p = true <-> occurs "firefox" u) /\
  (opera p = true <-> occurs "opera" u) /\
  (win p = true <-> occurs "win" u) /\
  (mac p = true <-> occurs "mac" u) /\
  (linux p = true <-> occurs "linux" u) /\
  (ssr p = true <-> occurs "ssr" u) /\
  intersection p = SUPPORTS_INTERSECTION h /\
  touch p = SUPPORTS_TOUCH h.
Proof.
  intros p u. unfold p, getPlatform; cbn [android ios cordova electron chrome edge
    firefox opera win mac linux ssr intersection touch]. fold u.
  rewrite !matches_one, !includes_spec.
  repeat split; try tauto.
  - intros H. apply matches_spec in H. destruct H as (q & Hin & Hq).
    cbn in Hin. destruct Hin as [<-|[<-|[<-|[]]]]; tauto.
  - intros H. apply matches_spec.
    destruct H as [H|[H|H]];
      [exists "iphone" | exists "ipad" | exists "ipod"]; (split; [cbn; tauto | exact H]).
Qed.

(** X2.  The flags are not exclusive and only grow with the string: when
    the identification string of one host occurs inside that of another,
    every flag read off the first is also set for the second. *)
Theorem X2_flags_grow (h h' : Host) :
  occurs (identification h) (identification h') ->
  (forall flag : string,
     In (flag, true) (agentFlags (getPlatform h)) ->
     In (flag, true) (agentFlags (getPlatform h'))) /\
  (ssr (getPlatform h) = true -> ssr (getPlatform h') = true).
Proof.
  intros Hocc.
  assert (Hone : forall re : JS.RegExp,
             JS.matches (identification h) re = true ->
             JS.matches (identification h') re = true).
  { intros re H. apply matches_spec in H. destruct H as (q & Hin & Hq).
    apply matches_spec. exists q. split; [exact Hin|].
    exact (occurs_trans q _ _ Hq Hocc). }
  unfold agentFlags, getPlatform;
    cbn [android ios cordova electron chrome edge firefox opera win mac linux ssr].
  split; [|apply Hone].
  intros flag H. cbn [In] in *.
  repeat (destruct H as [H|H];
          [apply pair_equal_spec in H; destruct H as [<- Hm]; rewrite (Hone _ Hm);
           repeat (first [left; reflexivity | right])|]).
  destruct H.
Qed.

Lemma X2_flags_grow_witness :
  chrome (getPlatform (desktop 800 600)) = true /\
  In ("chrome", true)
     (agentFlags (getPlatform
        (withAgent (String.append "opera/9.80 " (userAgent (desktop 800 600)))
           (desktop 800 600)))).
Proof.
  split; [vm_compute; reflexivity|].
  assert (Hocc : occurs (identification (desktop 800 600))
                   (identification
                      (withAgent (String.append "opera/9.80 " (userAgent (desktop 800 600)))
                         (desktop 800 600)))).
  { exists "opera/9.80 ", "". vm_compute. reflexivity. }
  destruct (X2_flags_grow _ _ Hocc) as [Hall _].
  apply Hall. vm_compute. do 4 right. left. reflexivity.
Defined.

(** X3.  Without a window the snapshot is the same whatever the host
    knows of its client: [ssr] is set, no other flag read off a user agent
    is, and the two capabilities are those of the globals. *)
Theorem X3_headless_platform (h : Host) :
  IN_BROWSER h = false ->
  getPlatform h =
  {| android := false; ios := false; cordova := false; electron := false;
     chrome := false; edge := false; firefox := false; opera := false;
     win := false; mac := false; linux := false;
     intersection := SUPPORTS_INTERSECTION h;
     touch := SUPPORTS_TOUCH h;
     ssr := true |}.
Proof.
  intros Hhead. unfold getPlatform, identification. rewrite Hhead. reflexivity.
Qed.

Lemma X3_headless_platform_witness :
  occurs "android" (userAgent phoneOnServer) /\
  android (getPlatform phoneOnServer) = false /\
  ssr (getPlatform phoneOnServer) = true.
Proof.
  split.
  - apply includes_spec. vm_compute; reflexivity.
  - rewrite (X3_headless_platform phoneOnServer eq_refl). split; reflexivity.
Defined.

(** ** Resizing *)

Lemma resize_resize (h1 h2 : Host) (d : Display) :
  resize h2 (resize h1 d) = resize h2 d.
Proof.
  unfold resize. destruct (listening d) eqn:Hl.
  - cbn [flush onResize listening]. rewrite Hl. reflexivity.
  - rewrite Hl. reflexivity.
Qed.

Lemma fire_app (a b : list Host) (d : Display) :
  fire (a ++ b) d = fire b (fire a d).
Proof.
  revert d. induction a as [|h a IH]; intros d; [reflexivity|].
  cbn [fire app]. apply IH.
Qed.

Lemma fire_not_listening (events : list Host) (d : Display) :
  listening d = false -> fire events d = d.
Proof.
  intros Hl. induction events as [|h events IH]; [reflexivity|].
  cbn [fire]. unfold resize. rewrite Hl. exact IH.
Qed.

(** X4.  A display created without a window registers no listener: its
    width and height are 0, it is not mobile, and no sequence of resize
    events changes anything of it. *)
Theorem X4_headless_is_frozen (h : Host) (opts : option DisplayOptions.t)
  (events : list Host) :
  IN_BROWSER h = false ->
  let d := fire events (createDisplay h opts) in
  d = createDisplay h opts /\
  width (state d) = JS.Num 0 /\ height (state d) = JS.Num 0 /\
  mobile (state d) = false.
Proof.
  intros Hhead d.
  assert (Hd : d = createDisplay h opts).
  { apply fire_not_listening. cbn [createDisplay listening]. exact Hhead. }
  rewrite Hd. split; [reflexivity|].
  unfold createDisplay, runEffect, effect, getClientWidth, getClientHeight;
    cbn [state width height mobile].
  unfold getPlatform, identification. rewrite Hhead. repeat split.
Qed.

Lemma X4_headless_is_frozen_witness :
  fire [desktop 1500 800; phone 360 640] (createDisplay phoneOnServer None) =
  createDisplay phoneOnServer None.
Proof.
  apply (X4_headless_is_frozen phoneOnServer None [desktop 1500 800; phone 360 640] eq_refl).
Defined.

(** X5.  Only the last resize counts: after any sequence of resize events
    a display is what the last event alone would have made of it. *)
Theorem X5_last_resize_wins (events : list Host) (h : Host) (d : Display) :
  fire (events ++ [h]) d = resize h d.
Proof.
  revert d. induction events as [|h0 events IH]; intros d; [reflexivity|].
  cbn [app fire]. rewrite IH. apply resize_resize.
Qed.

Lemma settled_create (h : Host) (opts : option DisplayOptions.t) :
  settled (createDisplay h opts).
Proof. split; [reflexivity | apply getClientWidth_integer]. Qed.

Lemma settled_resize (h : Host) (d : Display) : settled d -> settled (resize h d).
Proof.
  intros Hd. unfold resize. destruct (listening d); [|exact Hd].
  split; [reflexivity | apply getClientWidth_integer].
Qed.

Lemma fire_keeps (events : list Host) (d : Display) :
  options (fire events d) = options d /\
  snapshot (fire events d) = snapshot d /\
  listening (fire events d) = listening d /\
  (settled d -> settled (fire events d)).
Proof.
  revert d. induction events as [|h events IH]; intros d;
    [repeat (split; [reflexivity|]); exact (fun H => H)|].
  cbn [fire]. destruct (IH (resize h d)) as (Ho & Hs & Hl & Hset).
  assert (Hr : options (resize h d) = options d /\
               snapshot (resize h d) = snapshot d /\
               listening (resize h d) = listening d).
  { unfold resize. destruct (listening d) eqn:E;
      cbn [flush onResize options snapshot listening];
      auto. }
  destruct Hr as (Ro & Rs & Rl). rewrite Ho, Hs, Hl, Ro, Rs, Rl.
  repeat (split; [reflexivity|]).
  intros Hsd. apply Hset, settled_resize, Hsd.
Qed.

(** A settled resize is the listener followed by a flush. *)
Lemma resize_as_events (h : Host) (d : Display) :
  listening d = true -> resize h d = run [Resized h; Flushed] d.
Proof. intros Hl. unfold resize. cbn [run step]. rewrite Hl. reflexivity. Qed.

(** Between the listener and the flush the state lags the refs. *)
Example state_lags_until_flush :
  let d := run [Resized (desktop 1500 800)] (createDisplay (desktop 500 800) None) in
  widthRef d = JS.Num 1500 /\ width (state d) = JS.Num 500 /\ name (state d) = "xs" /\
  name (state (run [Flushed] d)) = "lg".
Proof. vm_compute. repeat split. Qed.

(** What listener calls and flushes, in any order, keep of a display:
    its options and snapshot; that the two refs were read off one of the
    windows seen; and that the state is the effect over one of them. *)
Lemma run_keeps (cfg : InternalDisplayOptions.t) (snap : DisplayPlatform)
  (events : list Event) :
  forall (seen : list Host) (d : Display),
    options d = cfg -> snapshot d = snap ->
    (exists h1 : Host, In h1 seen /\
       heightRef d = getClientHeight h1 /\ widthRef d = getClientWidth h1) ->
    (exists h0 : Host, In h0 seen /\
       state d = runEffect cfg snap (getClientHeight h0) (getClientWidth h0)) ->
    options (run events d) = cfg /\ snapshot (run events d) = snap /\
    (exists h1 : Host, In h1 (seen ++ resizedHosts events) /\
       heightRef (run events d) = getClientHeight h1 /\
       widthRef (run events d) = getClientWidth h1) /\
    (exists h0 : Host, In h0 (seen ++ resizedHosts events) /\
       state (run events d) = runEffect cfg snap (getClientHeight h0) (getClientWidth h0)).
Proof.
  induction events as [|e events IH]; intros seen d Ho Hs (h1 & Hin1 & Hh & Hw)
    (h0 & Hin0 & Hst).
  - cbn [run resizedHosts]. repeat split; try assumption.
    + exists h1. split; [apply in_or_app; left; exact Hin1 | split; assumption].
    + exists h0. split; [apply in_or_app; left; exact Hin0 | exact Hst].
  - destruct e as [h'|]; cbn [run step resizedHosts].
    + replace (seen ++ h' :: resizedHosts events)
        with ((seen ++ [h']) ++ resizedHosts events)
        by (rewrite <- List.app_assoc; reflexivity).
      destruct (listening d).
      * apply IH; cbn [onResize options snapshot heightRef widthRef state];
          try assumption.
        -- exists h'. split; [apply in_or_app; right; left; reflexivity|].
           split; reflexivity.
        -- exists h0. split; [apply in_or_app; left; exact Hin0 | exact Hst].
      * apply IH; try assumption.
        -- exists h1. split; [apply in_or_app; left; exact Hin1 | split; assumption].
        -- exists h0. split; [apply in_or_app; left; exact Hin0 | exact Hst].
    + apply IH; cbn [flush options snapshot heightRef widthRef state];
        try assumption.
      * exists h1. split; [exact Hin1 | split; assumption].
      * exists h1. split; [exact Hin1|]. rewrite Ho, Hs, Hh, Hw. reflexivity.
Qed.

(** X6.  The configuration of a display is fixed when it is created, and
    its state is never a mixture.  Whatever the order in which the window
    fires [resize] and Vue flushes the effect, also across windows with
    another user agent, the state carries the thresholds and the mobile
    breakpoint resolved at creation and the platform of the creating host,
    and it is as a whole the effect over the width and height of one of
    the windows seen so far -- the creating one or one that fired; the two
    refs were read off one window, and a flush makes the state the effect
    over that one. *)
Theorem X6_configuration_is_fixed (h : Host) (opts : option DisplayOptions.t)
  (events : list Event) :
  let d := run events (createDisplay h opts) in
  thresholds (state d) = InternalDisplayOptions.thresholds (parseDisplayOptions opts) /\
  mobileBreakpoint (state d) =
    InternalDisplayOptions.mobileBreakpoint (parseDisplayOptions opts) /\
  platform (state d) = getPlatform h /\
  (exists h0 : Host, In h0 (h :: resizedHosts events) /\
     state d = runEffect (parseDisplayOptions opts) (getPlatform h)
                 (getClientHeight h0) (getClientWidth h0)) /\
  (exists h1 : Host, In h1 (h :: resizedHosts events) /\
     heightRef d = getClientHeight h1 /\ widthRef d = getClientWidth h1 /\
     state (run (events ++ [Flushed]) (createDisplay h opts)) =
       runEffect (parseDisplayOptions opts) (getPlatform h)
         (getClientHeight h1) (getClientWidth h1)).
Proof.
  intros d.
  assert (Hseen : exists h' : Host, In h' [h] /\
            heightRef (createDisplay h opts) = getClientHeight h' /\
            widthRef (createDisplay h opts) = getClientWidth h').
  { exists h. split; [left; reflexivity | split; reflexivity]. }
  assert (Hstate : exists h' : Host, In h' [h] /\
            state (createDisplay h opts) =
            runEffect (parseDisplayOptions opts) (getPlatform h)
              (getClientHeight h') (getClientWidth h')).
  { exists h. split; [left; reflexivity | reflexivity]. }
  destruct (run_keeps (parseDisplayOptions opts) (getPlatform h) events [h]
              (createDisplay h opts) eq_refl eq_refl Hseen Hstate)
    as (Ho & Hs & (h1 & Hin1 & Hh & Hw) & (h0 & Hin0 & Hst)).
  fold d in Ho, Hs, Hh, Hw, Hst. cbn [app] in Hin0, Hin1.
  assert (Hconf : thresholds (state d) =
                    InternalDisplayOptions.thresholds (parseDisplayOptions opts) /\
                  mobileBreakpoint (state d) =
                    InternalDisplayOptions.mobileBreakpoint (parseDisplayOptions opts) /\
                  platform (state d) = getPlatform h).
  { rewrite Hst. repeat split. }
  destruct Hconf as (Ht & Hm & Hp).
  split; [exact Ht|]. split; [exact Hm|]. split; [exact Hp|]. split.
  - exists h0. split; [exact Hin0 | exact Hst].
  - exists h1. split; [exact Hin1|]. split; [exact Hh|]. split; [exact Hw|].
    assert (Hrun : forall (es : list Event) (x : Display),
               run (es ++ [Flushed]) x = flush (run es x)).
    { induction es as [|e es IHes]; intros x; [reflexivity | apply IHes]. }
    rewrite Hrun. fold d. cbn [flush state]. rewrite Ho, Hs, Hh, Hw. reflexivity.
Qed.

(** X7.  Resizing amounts to creating anew: in a browser, a display resized
    to a window with the same platform snapshot is the display that
    [createDisplay] gives there with the same options. *)
Theorem X7_resize_is_create (h h' : Host) (opts : option DisplayOptions.t) :
  IN_BROWSER h = true ->
  IN_BROWSER h' = true ->
  getPlatform h' = getPlatform h ->
  resize h' (createDisplay h opts) = createDisplay h' opts.
Proof.
  intros Hh Hh' Hp.
  unfold resize, flush, onResize, createDisplay;
    cbn [listening options snapshot heightRef widthRef].
  rewrite Hh, Hh', Hp. reflexivity.
Qed.

Lemma X7_resize_is_create_witness :
  resize (desktop 1500 800) (createDisplay (desktop 500 800) (Some someOptions)) =
  createDisplay (desktop 1500 800) (Some someOptions).
Proof.
  apply (X7_resize_is_create (desktop 500 800) (desktop 1500 800) (Some someOptions)
           eq_refl eq_refl eq_refl).
Defined.

(** ** The classifier on arbitrary thresholds *)

Lemma lt_excludes_ge (a b : JS.number) : JS.lt a b = true -> JS.ge a b = false.
Proof.
  destruct a as [x|], b as [y|]; cbn; try discriminate.
  intros H. apply Z.ltb_lt in H. apply Z.leb_gt. exact H.
Qed.

Lemma lt_or_ge (x y : Z) : JS.ge (JS.Num x) (JS.Num y) = negb (JS.lt (JS.Num x) (JS.Num y)).
Proof. cbn. destruct (Z.ltb_spec x y), (Z.leb_spec y x); cbn; try reflexivity; lia. Qed.

Section AnyThresholds.

Variables (t : DisplayThresholds) (mb : MobileBreakpoint) (p : DisplayPlatform).
Variables (h w : JS.number).

Let d : DisplayInstance := effect t mb p h w.

(** X8.  Whatever the thresholds, ascending or not, numbers or not: at most
    one of [xs], [sm], [md], [lg] is set, [lg] and [xl] are never set
    together, so at most two flags are set; with an integer width and a
    number under [lg] at least one flag is set; with nothing under [lg]
    neither [lg] nor [xl] is. *)
Theorem X8_bucket_bounds :
  (countTrue [xs d; sm d; md d; lg d] <= 1)%nat /\
  lg d && xl d = false /\
  (countTrue (buckets d) <= 2)%nat /\
  ((exists z : Z, w = JS.Num z) -> (exists e : Z, threshold t "lg" = JS.Num e) ->
   (1 <= countTrue (buckets d))%nat) /\
  (t !! "lg" = None -> lg d = false /\ xl d = false).
Proof.
  unfold d, buckets, effect; cbn [xs sm md lg xl].
  pose proof (lt_excludes_ge w (threshold t "lg")) as Hex.
  split; [|split; [|split; [|split]]].
  - destruct (JS.lt w (threshold t "xs")), (JS.lt w (threshold t "sm")),
      (JS.lt w (threshold t "md")), (JS.lt w (threshold t "lg")); cbn; lia.
  - destruct (JS.lt w (threshold t "lg")); [rewrite (Hex eq_refl)|];
      cbn; [apply andb_false_r | reflexivity].
  - destruct (JS.lt w (threshold t "xs")), (JS.lt w (threshold t "sm")),
      (JS.lt w (threshold t "md")), (JS.lt w (threshold t "lg")),
      (JS.ge w (threshold t "lg")); cbn; lia.
  - intros [z ->] [e ->]. rewrite lt_or_ge.
    destruct (JS.lt (JS.Num z) (threshold t "xs")), (JS.lt (JS.Num z) (threshold t "sm")),
      (JS.lt (JS.Num z) (threshold t "md")), (JS.lt (JS.Num z) (JS.Num e)); cbn; lia.
  - intros Hlg. unfold threshold. rewrite Hlg. cbn [JS.ToNumber].
    destruct w; cbn; split; reflexivity.
Qed.

(** X9.  Whatever the thresholds and the width, [name] is one of the five
    labels; each of [xs], [sm], [md], [lg] is set exactly when [name] is
    its label; and [name] is ["xl"] exactly when none of these four is
    set, whether or not [xl] is. *)
Theorem X9_name_of_any_state :
  In (name d) ["xs"; "sm"; "md"; "lg"; "xl"] /\
  (xs d = true <-> name d = "xs") /\
  (sm d = true <-> name d = "sm") /\
  (md d = true <-> name d = "md") /\
  (lg d = true <-> name d = "lg") /\
  (name d = "xl" <-> xs d = false /\ sm d = false /\ md d = false /\ lg d = false).
Proof.
  unfold d, effect; cbn [xs sm md lg name].
  destruct (JS.lt w (threshold t "xs")), (JS.lt w (threshold t "sm")),
    (JS.lt w (threshold t "md")), (JS.lt w (threshold t "lg")); cbn;
    repeat split; intros; try reflexivity; try discriminate; try tauto;
    repeat match goal with H : _ /\ _ |- _ => destruct H end; discriminate.
Qed.

(** X10.  Whatever the thresholds and the width, the cumulative flags are
    nested: [lgAndUp] entails [mdAndUp], which entails [smAndUp], and
    [smAndDown] entails [mdAndDown], which entails [lgAndDown]; and no
    bucket lies outside its own pair: [sm], [md] and [lg] each entail both
    flags that bear their name, except for the [AndDown] flag when [xl] is
    set as well. *)
Theorem X10_cumulative_flags_nest :
  (lgAndUp d = true -> mdAndUp d = true) /\
  (mdAndUp d = true -> smAndUp d = true) /\
  (smAndDown d = true -> mdAndDown d = true) /\
  (mdAndDown d = true -> lgAndDown d = true) /\
  (sm d = true -> smAndUp d = true /\ smAndDown d = negb (xl d)) /\
  (md d = true -> mdAndUp d = true /\ mdAndDown d = negb (xl d)) /\
  (lg d = true -> lgAndUp d = true /\ lgAndDown d = true).
Proof.
  unfold d, effect;
    cbn [xs sm md lg xl smAndDown smAndUp mdAndDown mdAndUp lgAndDown lgAndUp].
  pose proof (lt_excludes_ge w (threshold t "lg")) as Hex.
  destruct (JS.lt w (threshold t "xs")), (JS.lt w (threshold t "sm")),
    (JS.lt w (threshold t "md")), (JS.lt w (threshold t "lg"));
    try rewrite (Hex eq_refl);
    destruct (JS.ge w (threshold t "lg")); cbn;
    repeat split; intros; try reflexivity; try discriminate; try assumption.
Qed.

End AnyThresholds.

(** ** The classifier on ascending thresholds *)

Section AscendingIntervals.

Variables (t : DisplayThresholds) (mb : MobileBreakpoint) (p : DisplayPlatform).
Variables (h : JS.number) (w : Z).
Hypothesis Hasc : ascending t.

Let d : DisplayInstance := effect t mb p h (JS.Num w).

(** X11.  With ascending thresholds the buckets are the five intervals cut
    by the boundaries, each boundary belonging to the bucket above it:
    [xs] is [w < xs], [sm] is [xs <= w < sm], [md] is [sm <= w < md],
    [lg] is [md <= w < lg] and [xl] is [lg <= w]. *)
Theorem X11_buckets_are_intervals (a b c e : Z) :
  threshold t "xs" = JS.Num a -> threshold t "sm" = JS.Num b ->
  threshold t "md" = JS.Num c -> threshold t "lg" = JS.Num e ->
  (xs d = true <-> w < a) /\
  (sm d = true <-> a <= w < b) /\
  (md d = true <-> b <= w < c) /\
  (lg d = true <-> c <= w < e) /\
  (xl d = true <-> e <= w).
Proof.
  intros Ha Hb Hc He.
  destruct (ascending_numbers t Hasc)
    as (a' & b' & c' & e' & Ha' & Hb' & Hc' & He' & Hab & Hbc & Hce).
  assert (a' = a) by congruence. assert (b' = b) by congruence.
  assert (c' = c) by congruence. assert (e' = e) by congruence. subst a' b' c' e'.
  unfold d, effect; cbn [xs sm md lg xl]. rewrite Ha, Hb, Hc, He. cbn [JS.lt JS.ge].
  split_comparisons; cbn; repeat split; intros; try reflexivity; try discriminate; lia.
Qed.

(** X12.  With ascending thresholds each pair of cumulative flags pins its
    bucket down and the pairs complement one another: [sm] is
    [smAndUp && smAndDown], [md] is [mdAndUp && mdAndDown], [lg] is
    [lgAndUp && lgAndDown]; [smAndDown] is the negation of [mdAndUp] and
    [mdAndDown] that of [lgAndUp]; [xs] is the negation of [smAndUp] and
    [xl] that of [lgAndDown]. *)
Theorem X12_cumulative_pairs :
  sm d = smAndUp d && smAndDown d /\
  md d = mdAndUp d && mdAndDown d /\
  lg d = lgAndUp d && lgAndDown d /\
  smAndDown d = negb (mdAndUp d) /\
  mdAndDown d = negb (lgAndUp d) /\
  xs d = negb (smAndUp d) /\
  xl d = negb (lgAndDown d).
Proof.
  destruct (effect_buckets t mb p h w Hasc)
    as (a & b & c & e & Hab & Hbc & Hce & Hxs & Hsm & Hmd & Hlg & Hxl).
  fold d in Hxs, Hsm, Hmd, Hlg, Hxl.
  change (smAndDown d) with (negb (md d || lg d || xl d)).
  change (smAndUp d) with (negb (xs d)).
  change (mdAndDown d) with (negb (lg d || xl d)).
  change (mdAndUp d) with (negb (xs d || sm d)).
  change (lgAndDown d) with (negb (xl d)).
  change (lgAndUp d) with (negb (xs d || sm d || md d)).
  rewrite Hxs, Hsm, Hmd, Hlg, Hxl.
  split_comparisons; cbn; repeat split; lia.
Qed.

(** X13.  With ascending thresholds a wider window never falls into a lower
    bucket: the place of the named bucket does not decrease with the
    width. *)
Theorem X13_rank_grows_with_width (h' : JS.number) (w' : Z) :
  w <= w' ->
  (rank d <= rank (effect t mb p h' (JS.Num w')))%nat.
Proof.
  intros Hle.
  destruct (ascending_numbers t Hasc)
    as (a & b & c & e & Ha & Hb & Hc & He & Hab & Hbc & Hce).
  unfold d, rank, effect; cbn [xs sm md lg]. rewrite Ha, Hb, Hc, He. cbn [JS.lt].
  split_comparisons; cbn; lia.
Qed.

(** X14.  With ascending thresholds and a snapshot that is not
    server-rendered, a mobile breakpoint given by name makes [mobile] one
    of the flags: [xs] for ["xs"], [smAndDown] for ["sm"], [mdAndDown] for
    ["md"], the default, and [lgAndDown] for ["lg"]. *)
Theorem X14_mobile_is_a_cumulative_flag :
  ssr p = false ->
  mobile (effect t (OfName "xs") p h (JS.Num w)) = xs d /\
  mobile (effect t (OfName "sm") p h (JS.Num w)) = smAndDown d /\
  mobile (effect t (OfName "md") p h (JS.Num w)) = mdAndDown d /\
  mobile (effect t (OfName "lg") p h (JS.Num w)) = lgAndDown d.
Proof.
  intros Hssr.
  destruct (ascending_numbers t Hasc)
    as (a & b & c & e & Ha & Hb & Hc & He & Hab & Hbc & Hce).
  unfold d, effect; cbn [mobile xs smAndDown mdAndDown lgAndDown].
  rewrite Hssr, Ha, Hb, Hc, He. cbn [JS.lt JS.ge negb].
  split_comparisons; cbn; repeat split; lia.
Qed.

End AscendingIntervals.

Lemma narrow_ascending : ascending narrowThresholds.
Proof. vm_compute. auto. Qed.

Lemma X11_buckets_are_intervals_witness :
  ascending narrowThresholds /\
  md (effect narrowThresholds (OfName "md") (getPlatform (desktop 340 600))
        (JS.Num 600) (JS.Num 340)) = true.
Proof.
  split; [exact narrow_ascending|].
  destruct (X11_buckets_are_intervals narrowThresholds (OfName "md")
              (getPlatform (desktop 340 600)) (JS.Num 600) 340 narrow_ascending
              0 340 540 800
              ltac:(vm_compute; reflexivity) ltac:(vm_compute; reflexivity)
              ltac:(vm_compute; reflexivity) ltac:(vm_compute; reflexivity))
    as (_ & _ & Hmd & _).
  apply Hmd. lia.
Defined.

Lemma X12_cumulative_pairs_witness :
  ascending narrowThresholds /\
  let d := effect narrowThresholds (OfName "md") (getPlatform (desktop 340 600))
             (JS.Num 600) (JS.Num 340) in
  md d = mdAndUp d && mdAndDown d /\ smAndDown d = negb (mdAndUp d).
Proof.
  split; [exact narrow_ascending|]. intros d.
  destruct (X12_cumulative_pairs narrowThresholds (OfName "md")
              (getPlatform (desktop 340 600)) (JS.Num 600) 340 narrow_ascending)
    as (_ & Hmd & _ & Hdown & _).
  split; [exact Hmd | exact Hdown].
Defined.

Lemma X13_rank_grows_with_width_witness :
  ascending narrowThresholds /\ 339 <= 800 /\
  (rank (effect narrowThresholds (OfName "md") (getPlatform (desktop 339 600))
           (JS.Num 600) (JS.Num 339)) <=
   rank (effect narrowThresholds (OfName "md") (getPlatform (desktop 339 600))
           (JS.Num 900) (JS.Num 800)))%nat.
Proof.
  split; [exact narrow_ascending|]. split; [lia|].
  apply (X13_rank_grows_with_width narrowThresholds (OfName "md")
           (getPlatform (desktop 339 600)) (JS.Num 600) 339 narrow_ascending
           (JS.Num 900) 800).
  lia.
Defined.

Lemma X14_mobile_is_a_cumulative_flag_witness :
  ascending narrowThresholds /\
  ssr (getPlatform (desktop 400 600)) = false /\
  mobile (effect narrowThresholds (OfName "md") (getPlatform (desktop 400 600))
            (JS.Num 600) (JS.Num 400)) =
  mdAndDown (effect narrowThresholds (OfNumber (JS.Num 0)) (getPlatform (desktop 400 600))
               (JS.Num 600) (JS.Num 400)).
Proof.
  split; [exact narrow_ascending|]. split; [vm_compute; reflexivity|].
  destruct (X14_mobile_is_a_cumulative_flag narrowThresholds (OfNumber (JS.Num 0))
              (getPlatform (desktop 400 600)) (JS.Num 600) 400 narrow_ascending
              ltac:(vm_compute; reflexivity))
    as (_ & _ & Hmd & _).
  exact Hmd.
Defined.

(** ** The mobile flag *)

(** X15.  A narrower window is at least as mobile: whatever the
    configuration and the snapshot, if a width is classified as mobile
    then so is every smaller width. *)
Theorem X15_mobile_shrinks (t : DisplayThresholds) (mb : MobileBreakpoint)
  (p : DisplayPlatform) (h1 h2 : JS.number) (w1 w2 : Z) :
  w1 <= w2 ->
  mobile (effect t mb p h2 (JS.Num w2)) = true ->
  mobile (effect t mb p h1 (JS.Num w1)) = true.
Proof.
  intros Hle. unfold effect; cbn [mobile].
  destruct (ssr p); cbn [negb]; [exact (fun H => H)|].
  destruct (match mb with OfNumber n => n | OfName b => threshold t b end) as [y|];
    cbn [JS.lt]; [|discriminate].
  intros H. apply Z.ltb_lt in H. apply Z.ltb_lt. lia.
Qed.

Lemma X15_mobile_shrinks_witness :
  mobile (state (createDisplay (desktop 1000 768) None)) = true /\
  mobile (state (createDisplay (desktop 320 480) None)) = true.
Proof.
  assert (H : mobile (state (createDisplay (desktop 1000 768) None)) = true)
    by (vm_compute; reflexivity).
  split; [exact H|].
  exact (X15_mobile_shrinks
           (InternalDisplayOptions.thresholds (parseDisplayOptions None))
           (InternalDisplayOptions.mobileBreakpoint (parseDisplayOptions None))
           (getPlatform (desktop 320 480)) (JS.Num 480) (JS.Num 768) 320 1000
           ltac:(lia) H).
Defined.

(** X16.  A mobile breakpoint that names nothing in the thresholds -- a
    misspelt name, or a name without a default -- never makes a display
    mobile outside server rendering, and neither does the number [NaN]. *)
Theorem X16_missing_breakpoint (t : DisplayThresholds) (b : string)
  (p : DisplayPlatform) (h w : JS.number) :
  t !! b = None ->
  ssr p = false ->
  mobile (effect t (OfName b) p h w) = false /\
  mobile (effect t (OfNumber JS.NaN) p h w) = false.
Proof.
  intros Hb Hssr. unfold effect, threshold; cbn [mobile].
  rewrite Hssr, Hb. cbn. destruct w; split; reflexivity.
Qed.

Lemma X16_missing_breakpoint_witness :
  mobile (effect narrowThresholds (OfName "medium") (getPlatform (desktop 10 600))
            (JS.Num 600) (JS.Num 10)) = false.
Proof.
  apply (X16_missing_breakpoint narrowThresholds "medium"
           (getPlatform (desktop 10 600)) (JS.Num 600) (JS.Num 10)).
  - vm_compute; reflexivity.
  - vm_compute; reflexivity.
Defined.

(** ** Every state a display goes through *)

(** X17.  When the resolved thresholds are ascending, every state that a
    display goes through -- at creation and after any sequence of resize
    events, on any host -- has exactly one bucket flag set. *)
Theorem X17_reachable_states_partition (h : Host) (opts : option DisplayOptions.t)
  (events : list Host) :
  ascending (InternalDisplayOptions.thresholds (parseDisplayOptions opts)) ->
  countTrue (buckets (state (fire events (createDisplay h opts)))) = 1%nat.
Proof.
  intros Hasc.
  destruct (fire_keeps events (createDisplay h opts)) as (Ho & Hs & _ & Hset).
  destruct (Hset (settled_create h opts)) as (Hstate & z & Hz).
  cbn [createDisplay options snapshot] in Ho, Hs.
  rewrite Hstate, Ho, Hs, Hz. unfold runEffect.
  destruct (effect_buckets _
              (InternalDisplayOptions.mobileBreakpoint (parseDisplayOptions opts))
              (getPlatform h)
              (heightRef (fire events (createDisplay h opts))) z Hasc)
    as (a & b & c & e & Hab & Hbc & Hce & Hxs & Hsm & Hmd & Hlg & Hxl).
  unfold buckets. rewrite Hxs, Hsm, Hmd, Hlg, Hxl.
  split_comparisons; cbn; try reflexivity; lia.
Qed.

Lemma X17_reachable_states_partition_witness :
  countTrue (buckets (state (fire [desktop 1500 800; phone 360 640]
                               (createDisplay (desktop 500 800) None)))) = 1%nat.
Proof.
  apply X17_reachable_states_partition.
  vm_compute. auto.
Defined.

(** ** Providing and injecting *)

(** X18.  [useDisplay] reads the display key and nothing else: once a
    display is provided under that key it is what [useDisplay] returns,
    whatever else is provided; providing something under another key
    changes nothing; and with the display key removed it throws. *)
Theorem X18_provide_then_use (provides : Provides) (d : DisplayInstance) :
  useDisplay (<[VuetifyDisplaySymbol := d]> provides) = Return (Some d) /\
  (forall key : string, key <> VuetifyDisplaySymbol ->
     useDisplay (<[key := d]> provides) = useDisplay provides) /\
  useDisplay (delete VuetifyDisplaySymbol provides) = Throw notInitialized.
Proof.
  unfold useDisplay, inject. split; [|split].
  - rewrite lookup_insert_eq. reflexivity.
  - intros key Hkey. rewrite lookup_insert_ne by exact Hkey. reflexivity.
  - rewrite lookup_delete_eq. reflexivity.
Qed.
